(** * sample.py: the three-word printer

  A shallow embedding of [src/sample.py] and of the fragment of the Python
  runtime it touches ([sys.argv], [len], list subscription, [print], the
  standard streams, the interpreter's exit status), followed by the
  properties of the script.

  The script is described at two levels.  In [Py] and [Sample] Python
  [str] values are [string]s, the process environment is an explicit
  [world] record threaded through a state-and-exception monad, and a write
  to a stream appends to the text the stream has received: this is the
  text a standard output in good order receives.  In [PyIO] and
  [SampleIO] the stream is the one the interpreter sets up, with a codec,
  a buffer and a device, so that a write can fail and the flush at exit
  can fail.  The first level is the second where standard output takes
  what is printed. *)

From Stdlib Require Import String Ascii List NArith ZArith Lia Bool.
From Stdlib.Strings Require Import Byte.
Import ListNotations.

Local Open Scope string_scope.
Local Open Scope Z_scope.

(** ** The Python runtime fragment *)

Module Py.

(** The built-in exceptions the modelled fragment can raise. *)
Inductive exn : Type :=
| IndexError.

Inductive outcome (A : Type) : Type :=
| Ok (a : A)
| Raise (e : exn).
Arguments Ok {A} a.
Arguments Raise {A} e.

(** What a process can observe or change: its argument list, its
    environment variables, the text received by the two standard streams,
    the file system and the network traffic. *)
Record world : Type := mkWorld {
  sys_argv : list string;
  environ  : list (string * string);
  stdout   : string;
  stderr   : string;
  files    : list (string * string);
  network  : list string
}.

Definition M (A : Type) : Type := world -> outcome A * world.

Definition ret {A : Type} (a : A) : M A := fun w => (Ok a, w).

Definition bind {A B : Type} (c : M A) (k : A -> M B) : M B :=
  fun w =>
    match c w with
    | (Ok a, w') => k a w'
    | (Raise e, w') => (Raise e, w')
    end.

Definition raise {A : Type} (e : exn) : M A := fun w => (Raise e, w).

Declare Scope py_scope.
Delimit Scope py_scope with py.
Notation "x <- c ;; k" := (bind c (fun x => k))
  (at level 61, c at next level, right associativity) : py_scope.
Notation "c ;; k" := (bind c (fun _ => k))
  (at level 61, right associativity) : py_scope.
Local Open Scope py_scope.

(** The line terminator, U+000A. *)
Definition nl : string := String (ascii_of_nat 10) EmptyString.

(** [sys.argv]: a read of the module attribute. *)
Definition get_argv : M (list string) := fun w => (Ok (sys_argv w), w).

(** [len(l)] *)
Definition len {A : Type} (l : list A) : Z := Z.of_nat (List.length l).

(** [l[i]]: a negative index counts from the end; an index outside
    [-len(l), len(l))] raises [IndexError]. *)
Definition subscript (l : list string) (i : Z) : M string :=
  let j := if i <? 0 then i + len l else i in
  if (j <? 0) || (len l <=? j) then raise IndexError
  else
    match nth_error l (Z.to_nat j) with
    | Some x => ret x
    | None => raise IndexError
    end.

(** The world in which standard output has received the text [s] and all
    else is as in [w]. *)
Definition with_stdout (w : world) (s : string) : world :=
  mkWorld (sys_argv w) (environ w) s (stderr w) (files w) (network w).

(** The same for standard error. *)
Definition with_stderr (w : world) (s : string) : world :=
  mkWorld (sys_argv w) (environ w) (stdout w) s (files w) (network w).

(** [sys.stdout.write(s)] *)
Definition write_stdout (s : string) : M unit :=
  fun w => (Ok tt, with_stdout w (stdout w ++ s)).

(** [sys.stderr.write(s)] *)
Definition write_stderr (s : string) : M unit :=
  fun w => (Ok tt, with_stderr w (stderr w ++ s)).

(** The loop of the built-in [print]: the separator is written before
    every object but the first. *)
Fixpoint print_objs (i : nat) (objs : list string) : M unit :=
  match objs with
  | [] => ret tt
  | o :: rest =>
      (if (0 <? i)%nat then write_stdout " " else ret tt) ;;
      write_stdout o ;;
      print_objs (S i) rest
  end.

(** The built-in [print] applied to the objects [objs], with its default
    separator (one space), its default end (one line terminator) and
    its default file ([sys.stdout]). *)
Definition print (objs : list string) : M unit :=
  print_objs 0 objs ;;
  write_stdout nl.

(** The report the interpreter prints for an uncaught exception. *)
Definition traceback (e : exn) : string :=
  match e with
  | IndexError =>
      "Traceback (most recent call last):" ++ nl
      ++ "IndexError: list index out of range" ++ nl
  end.

(** Running a module body as a script: status 0 when it runs to its end,
    status 1 and a traceback on standard error when an exception escapes. *)
Definition run_main (body : M unit) (w : world) : Z * world :=
  match body w with
  | (Ok _, w') => (0, w')
  | (Raise e, w') =>
      match write_stderr (traceback e) w' with
      | (_, w'') => (1, w'')
      end
  end.

(** A freshly started process: [sys.argv] is the program name followed by
    the arguments of the command line, and nothing has been written. *)
Definition spawn (prog : string) (args : list string)
           (env : list (string * string)) (fs : list (string * string))
  : world :=
  mkWorld (prog :: args) env EmptyString EmptyString fs [].



End Py.

(** ** The script *)

Module Sample.
Import Py.
Local Open Scope py_scope.

(** [sys.argv[i]] *)
Definition sys_argv_at (i : Z) : M string :=
  argv <- get_argv ;;
  subscript argv i.

(** <<
    def print_words():
        if len(sys.argv) == 4:
            print("Your words:", sys.argv[1], sys.argv[2], sys.argv[3])
        else:
            print("Give 3 words!")
    >> *)
Definition print_words : M unit :=
  argv <- get_argv ;;
  if len argv =? 4 then
    a1 <- sys_argv_at 1 ;;
    a2 <- sys_argv_at 2 ;;
    a3 <- sys_argv_at 3 ;;
    print ["Your words:"; a1; a2; a3]
  else
    print ["Give 3 words!"].

(** <<
    if __name__ == "__main__":
        print_words()
    >> *)
Definition module_body (name : string) : M unit :=
  if (name =? "__main__")%string then print_words else ret tt.

(** [python sample.py ...]: the module is run under the name [__main__]. *)
Definition run_script (w : world) : Z * world :=
  run_main (module_body "__main__") w.

End Sample.

(** ** The runtime at the level of the process

    [Py] describes the text a healthy standard output receives.  Here the
    stream is what the interpreter sets up: a text layer that encodes with
    a codec chosen at start-up, a buffer, and the device behind file
    descriptor 1, which may refuse the bytes.  A character of a [string] is
    read as a code point U+0000 to U+00FF.  Standard output is taken to be
    attached to a device; standard error is kept as text. *)

Module PyIO.

Inductive exn : Type :=
| IndexError
| UnicodeEncodeError
| OSError.

Inductive outcome (A : Type) : Type :=
| Ok (a : A)
| Raise (e : exn).
Arguments Ok {A} a.
Arguments Raise {A} e.

(** The codecs of the modelled fragment, each with the error handler
    [strict]. *)
Inductive codec : Type :=
| ASCII
| Latin1
| UTF8.

(** What is behind file descriptor 1: a device that takes every byte, or
    one that refuses every write for lack of space, as [/dev/full] does. *)
Inductive device : Type :=
| Accepting
| Full.

Record proc : Type := mkProc {
  sys_argv      : list string;
  environ       : list (string * string);
  out_codec     : codec;
  (** the buffering rule of the stream: given the bytes pending after a
      write, whether they are written out at once *)
  out_autoflush : list byte -> bool;
  out_pending   : list byte;
  out_device    : device;
  out_received  : list byte;
  stderr        : string;
  files         : list (string * string);
  network       : list string
}.

Definition IO (A : Type) : Type := proc -> outcome A * proc.

Definition ret {A : Type} (a : A) : IO A := fun p => (Ok a, p).

Definition bind {A B : Type} (c : IO A) (k : A -> IO B) : IO B :=
  fun p =>
    match c p with
    | (Ok a, p') => k a p'
    | (Raise e, p') => (Raise e, p')
    end.

Definition raise {A : Type} (e : exn) : IO A := fun p => (Raise e, p).

Declare Scope io_scope.
Delimit Scope io_scope with io.
Notation "x <- c ;; k" := (bind c (fun x => k))
  (at level 61, c at next level, right associativity) : io_scope.
Notation "c ;; k" := (bind c (fun _ => k))
  (at level 61, right associativity) : io_scope.
Local Open Scope io_scope.

Definition byte_of_N (n : N) : byte := byte_of_ascii (ascii_of_N n).

(** The bytes of one character, or [None] where the codec has none for it:
    ASCII reaches U+007F, Latin-1 maps every code point up to U+00FF to
    the byte of the same value, UTF-8 uses two bytes from U+0080 on. *)
Definition encode_char (k : codec) (c : ascii) : option (list byte) :=
  let n := N_of_ascii c in
  match k with
  | ASCII => if (n <? 128)%N then Some [byte_of_ascii c] else None
  | Latin1 => Some [byte_of_ascii c]
  | UTF8 =>
      if (n <? 128)%N then Some [byte_of_ascii c]
      else Some [byte_of_N (192 + n / 64); byte_of_N (128 + n mod 64)]
  end.

(** [s.encode(k, 'strict')], with [None] for [UnicodeEncodeError]. *)
Fixpoint encode (k : codec) (s : string) : option (list byte) :=
  match s with
  | EmptyString => Some []
  | String c s' =>
      match encode_char k c, encode k s' with
      | Some b, Some bs => Some (b ++ bs)%list
      | _, _ => None
      end
  end.

Definition can_encode (k : codec) (s : string) : bool :=
  match encode k s with
  | Some _ => true
  | None => false
  end.

(** The process in which standard output holds [pending] in its buffer and
    its device has received [received]; all else as in [p]. *)
Definition with_out (p : proc) (pending received : list byte) : proc :=
  mkProc (sys_argv p) (environ p) (out_codec p) (out_autoflush p)
         pending (out_device p) received
         (stderr p) (files p) (network p).

(** The process in which standard error has received [s] more. *)
Definition add_stderr (p : proc) (s : string) : proc :=
  mkProc (sys_argv p) (environ p) (out_codec p) (out_autoflush p)
         (out_pending p) (out_device p) (out_received p)
         (stderr p ++ s) (files p) (network p).

(** All the bytes standard output has taken so far, delivered or not. *)
Definition emitted (p : proc) : list byte :=
  (out_received p ++ out_pending p)%list.

Definition get_argv : IO (list string) := fun p => (Ok (sys_argv p), p).

(** [l[i]], as in [Py.subscript]. *)
Definition subscript (l : list string) (i : Z) : IO string :=
  let j := if i <? 0 then i + Py.len l else i in
  if (j <? 0) || (Py.len l <=? j) then raise IndexError
  else
    match nth_error l (Z.to_nat j) with
    | Some x => ret x
    | None => raise IndexError
    end.

(** [sys.stdout.flush()]: the pending bytes go to the device; a device
    that refuses them raises [OSError] and the bytes stay pending.  With
    nothing pending the device is not touched. *)
Definition flush_stdout : IO unit :=
  fun p =>
    match out_pending p with
    | [] => (Ok tt, p)
    | _ :: _ =>
        match out_device p with
        | Accepting =>
            (Ok tt, with_out p [] (out_received p ++ out_pending p)%list)
        | Full => (Raise OSError, p)
        end
    end.

(** [sys.stdout.write(s)]: the text is encoded, which may raise
    [UnicodeEncodeError] and then leaves the stream as it was; the bytes
    are added to the buffer, and written out when the buffering rule says
    so. *)
Definition write_stdout (s : string) : IO unit :=
  fun p =>
    match encode (out_codec p) s with
    | None => (Raise UnicodeEncodeError, p)
    | Some b =>
        let p' := with_out p (out_pending p ++ b)%list (out_received p) in
        if out_autoflush p (out_pending p') then flush_stdout p'
        else (Ok tt, p')
    end.

(** The loop of the built-in [print], one write per separator and per
    object. *)
Fixpoint print_objs (i : nat) (objs : list string) : IO unit :=
  match objs with
  | [] => ret tt
  | o :: rest =>
      (if (0 <? i)%nat then write_stdout " " else ret tt) ;;
      write_stdout o ;;
      print_objs (S i) rest
  end.

Definition print (objs : list string) : IO unit :=
  print_objs 0 objs ;;
  write_stdout Py.nl.

(** The report of an uncaught exception; the frame lines and the details
    of the message are left out. *)
Definition traceback (e : exn) : string :=
  "Traceback (most recent call last):" ++ Py.nl
  ++ match e with
     | IndexError => "IndexError: list index out of range"
     | UnicodeEncodeError => "UnicodeEncodeError"
     | OSError => "OSError: [Errno 28] No space left on device"
     end
  ++ Py.nl.

(** The report of a failed flush of standard output at exit, shortened in
    the same way. *)
Definition flush_report : string :=
  "Exception ignored in: <_io.TextIOWrapper name='<stdout>' mode='w'>"
  ++ Py.nl ++ "OSError: [Errno 28] No space left on device" ++ Py.nl.

(** Running a module body as a script.  An exception that escapes is
    reported on standard error and gives status 1.  Then the interpreter
    flushes standard output; when that fails it reports it and the status
    is 120. *)
Definition run_main (body : IO unit) (p : proc) : Z * proc :=
  match body p with
  | (r, p1) =>
      match
        match r with
        | Ok _ => (0, p1)
        | Raise e => (1, add_stderr p1 (traceback e))
        end
      with
      | (status, p2) =>
          match flush_stdout p2 with
          | (Ok _, p3) => (status, p3)
          | (Raise _, p3) => (120, add_stderr p3 flush_report)
          end
      end
  end.

(** The buffering rule of a terminal: a write that brings a line
    terminator is written out. *)
Definition line_buffered (pending : list byte) : bool :=
  existsb (fun b => Byte.eqb b (byte_of_N 10) || Byte.eqb b (byte_of_N 13))
          pending.

(** The buffering rule of a pipe or a file: the buffer is written out when
    it holds 8192 bytes. *)
Definition block_buffered (pending : list byte) : bool :=
  8192 <=? Z.of_nat (List.length pending).

Fixpoint getenv (name : string) (env : list (string * string))
  : option string :=
  match env with
  | [] => None
  | (n, v) :: env' => if (n =? name)%string then Some v else getenv name env'
  end.

(** The codec names of the modelled fragment. *)
Definition codec_of_name (name : string) : option codec :=
  if (name =? "ascii")%string then Some ASCII
  else if (name =? "latin-1")%string then Some Latin1
  else if (name =? "utf-8")%string then Some UTF8
  else None.

(** The codec of the standard streams: the one [PYTHONIOENCODING] names
    when it is set, the one of the locale otherwise.  [None] stands for a
    setting outside the modelled fragment. *)
Definition stdio_codec (env : list (string * string)) (locale : codec)
  : option codec :=
  match getenv "PYTHONIOENCODING" env with
  | None => Some locale
  | Some name => codec_of_name name
  end.

(** A process at its start, with the codec of its standard output given. *)
Definition boot (prog : string) (args : list string)
           (env : list (string * string)) (k : codec)
           (rule : list byte -> bool) (dev : device) : proc :=
  mkProc (prog :: args) env k rule [] dev [] EmptyString [] [].

(** A process started from a command line in an environment. *)
Definition start (prog : string) (args : list string)
           (env : list (string * string)) (locale : codec)
           (rule : list byte -> bool) (dev : device) : option proc :=
  match stdio_codec env locale with
  | Some k => Some (boot prog args env k rule dev)
  | None => None
  end.

(** The one-character text U+00E9, the letter e with an acute accent. *)
Definition e_acute : string := String (ascii_of_nat 233) EmptyString.

(** The text the print loop writes from position [i] on: the objects
    joined by single spaces, after one more space when [i] is not the
    first position. *)
Definition print_text (i : nat) (objs : list string) : string :=
  match objs with
  | [] => EmptyString
  | _ :: _ =>
      (if (0 <? i)%nat then " " else EmptyString) ++ String.concat " " objs
  end.

(** What a computation leaves alone: [p'] is [p] but for the state of the
    two standard streams. *)
Definition frame (p p' : proc) : Prop :=
  sys_argv p' = sys_argv p /\ environ p' = environ p
  /\ out_codec p' = out_codec p /\ out_autoflush p' = out_autoflush p
  /\ out_device p' = out_device p
  /\ files p' = files p /\ network p' = network p.

(** [p'] is [p] after standard output has taken the bytes [x] more, and
    nothing else has happened; a device that is full has received none of
    them. *)
Definition extends (p p' : proc) (x : list byte) : Prop :=
  frame p p' /\ stderr p' = stderr p
  /\ emitted p' = (emitted p ++ x)%list
  /\ (out_device p = Full -> out_received p' = out_received p).




End PyIO.

(** ** The script, run by a process *)

Module SampleIO.
Import PyIO.
Local Open Scope io_scope.

(** [sys.argv[i]] *)
Definition sys_argv_at (i : Z) : IO string :=
  argv <- get_argv ;;
  subscript argv i.

(** <<
    def print_words():
        if len(sys.argv) == 4:
            print("Your words:", sys.argv[1], sys.argv[2], sys.argv[3])
        else:
            print("Give 3 words!")
    >> *)
Definition print_words : IO unit :=
  argv <- get_argv ;;
  if Py.len argv =? 4 then
    a1 <- sys_argv_at 1 ;;
    a2 <- sys_argv_at 2 ;;
    a3 <- sys_argv_at 3 ;;
    print ["Your words:"; a1; a2; a3]
  else
    print ["Give 3 words!"].

(** <<
    if __name__ == "__main__":
        print_words()
    >> *)
Definition module_body (name : string) : IO unit :=
  if (name =? "__main__")%string then print_words else ret tt.

Definition run_script (p : proc) : Z * proc :=
  run_main (module_body "__main__") p.

(** Standard output takes all that the script prints: its device takes the
    bytes, and its codec has bytes for the three arguments where they are
    printed. *)
Definition accepts_output (p : proc) : bool :=
  match out_device p with
  | Full => false
  | Accepting =>
      match sys_argv p with
      | [_; a; b; c] =>
          can_encode (out_codec p) a && can_encode (out_codec p) b
          && can_encode (out_codec p) c
      | _ => true
      end
  end.

End SampleIO.

Import Py Sample.

(** ** Facts about texts *)

Section Texts.

Lemma append_assoc (s t u : string) : (s ++ t) ++ u = s ++ (t ++ u).
Proof.
  induction s as [|c s IH]; simpl; [reflexivity | now rewrite IH].
Qed.

Lemma append_empty_r (s : string) : s ++ EmptyString = s.
Proof.
  induction s as [|c s IH]; simpl; [reflexivity | now rewrite IH].
Qed.

Lemma append_inv_head (s t u : string) : s ++ t = s ++ u -> t = u.
Proof.
  induction s as [|c s IH]; simpl; intros H.
  - exact H.
  - injection H as H. auto.
Qed.



End Texts.

(** ** The runtime primitives *)

Section Runtime.

Lemma with_stdout_same (w : world) : with_stdout w (stdout w) = w.
Proof. now destruct w. Qed.

(** The print loop writes the objects joined by single spaces, after one
    more space when it does not start at the first object. *)
Lemma print_objs_spec (objs : list string) :
  forall (i : nat) (w : world),
    print_objs i objs w =
    (Ok tt,
     with_stdout w
       (stdout w ++
        match objs with
        | [] => EmptyString
        | _ :: _ =>
            (if (0 <? i)%nat then " " else EmptyString)
            ++ String.concat " " objs
        end)).
Proof.
  induction objs as [|o rest IH]; intros i w.
  - simpl. unfold ret. now rewrite append_empty_r, with_stdout_same.
  - cbn [print_objs]. unfold bind at 1.
    assert (Hhead :
      (if (0 <? i)%nat then write_stdout " " else ret tt) w =
      (Ok tt,
       with_stdout w
         (stdout w ++ (if (0 <? i)%nat then " " else EmptyString)))).
    { destruct (0 <? i)%nat; unfold write_stdout, ret; [reflexivity|].
      now rewrite append_empty_r, with_stdout_same. }
    rewrite Hhead. unfold bind, write_stdout at 1. rewrite IH.
    f_equal. cbn [stdout with_stdout]. unfold with_stdout at 1. cbn.
    f_equal. rewrite !append_assoc. do 2 f_equal.
    destruct rest as [|o' rest'].
    + cbn. now rewrite append_empty_r.
    + reflexivity.
Qed.

(** [print] appends to standard output its objects joined by single
    spaces, then one line terminator, and returns normally. *)
Lemma print_spec (objs : list string) (w : world) :
  print objs w =
  (Ok tt, with_stdout w (stdout w ++ String.concat " " objs ++ nl)).
Proof.
  unfold print, bind. rewrite print_objs_spec. unfold write_stdout.
  cbn. f_equal. unfold with_stdout. cbn. f_equal.
  rewrite append_assoc. f_equal.
  destruct objs; reflexivity.
Qed.

Lemma len_eq (A : Type) (l : list A) (n : nat) :
  len l = Z.of_nat n <-> List.length l = n.
Proof. unfold len. lia. Qed.

(** Inside its bounds a subscription returns the element and leaves the
    world alone. *)
Lemma subscript_in_bounds (l : list string) (i : Z) (w : world) :
  0 <= i < len l ->
  exists x, nth_error l (Z.to_nat i) = Some x /\ subscript l i w = (Ok x, w).
Proof.
  intros Hi. unfold subscript.
  destruct (Z.ltb_spec i 0) as [Hneg|_]; [lia|].
  destruct (Z.ltb_spec i 0) as [Hneg|_]; [lia|].
  destruct (Z.leb_spec (len l) i) as [Hbig|_]; [lia|]. cbn.
  destruct (nth_error l (Z.to_nat i)) as [x|] eqn:E.
  - exists x. split; reflexivity.
  - apply nth_error_None in E. unfold len in Hi. lia.
Qed.

End Runtime.


(** ** The script: what one run does *)

Section Script.

Lemma bind_ok (A B : Type) (c : M A) (k : A -> M B)
      (w w' : world) (a : A) :
  c w = (Ok a, w') -> bind c k w = k a w'.
Proof. intros H. unfold bind. now rewrite H. Qed.

Lemma length_four_inv (A : Type) (l : list A) :
  List.length l = 4%nat -> exists p a b c, l = [p; a; b; c].
Proof.
  destruct l as [|p [|a [|b [|c [|d l]]]]]; cbn; intros H; try discriminate.
  now exists p, a, b, c.
Qed.

(** [sys.argv[i]] at a position the list has. *)
Lemma sys_argv_at_nth (w : world) (i : Z) (x : string) :
  0 <= i ->
  nth_error (sys_argv w) (Z.to_nat i) = Some x ->
  sys_argv_at i w = (Ok x, w).
Proof.
  intros Hi Hx. unfold sys_argv_at.
  rewrite (bind_ok _ _ get_argv _ w w (sys_argv w) eq_refl).
  assert (Hb : 0 <= i < len (sys_argv w)).
  { split; [exact Hi|]. unfold len.
    assert (Z.to_nat i < List.length (sys_argv w))%nat
      by (apply nth_error_Some; congruence).
    lia. }
  destruct (subscript_in_bounds (sys_argv w) i w Hb) as (y & Hy & Hs).
  rewrite Hs. congruence.
Qed.

(** With a four-element [sys.argv] the first branch runs: the three
    subscriptions succeed and the labelled line is printed. *)
Lemma print_words_four (w : world) (p a b c : string) :
  sys_argv w = [p; a; b; c] ->
  print_words w =
  (Ok tt,
   with_stdout w
     (stdout w ++ "Your words: " ++ a ++ " " ++ b ++ " " ++ c ++ nl)).
Proof.
  intros E. unfold print_words.
  rewrite (bind_ok _ _ get_argv _ w w (sys_argv w) eq_refl).
  rewrite E. change (len [p; a; b; c] =? 4) with true. cbv iota.
  rewrite (bind_ok _ _ (sys_argv_at 1) _ w w a)
    by (apply sys_argv_at_nth; [lia | now rewrite E]).
  rewrite (bind_ok _ _ (sys_argv_at 2) _ w w b)
    by (apply sys_argv_at_nth; [lia | now rewrite E]).
  rewrite (bind_ok _ _ (sys_argv_at 3) _ w w c)
    by (apply sys_argv_at_nth; [lia | now rewrite E]).
  rewrite print_spec. cbn [String.concat]. rewrite !append_assoc.
  reflexivity.
Qed.

(** With any other length the second branch runs. *)
Lemma print_words_other (w : world) :
  List.length (sys_argv w) <> 4%nat ->
  print_words w = print ["Give 3 words!"] w.
Proof.
  intros H. unfold print_words.
  rewrite (bind_ok _ _ get_argv _ w w (sys_argv w) eq_refl).
  destruct (Z.eqb_spec (len (sys_argv w)) 4) as [E|_]; [|reflexivity].
  exfalso. apply H. now apply (len_eq _ _ 4%nat).
Qed.

Lemma print_words_other_out (w : world) :
  List.length (sys_argv w) <> 4%nat ->
  print_words w =
  (Ok tt, with_stdout w (stdout w ++ "Give 3 words!" ++ nl)).
Proof.
  intros H. rewrite print_words_other by exact H.
  now rewrite print_spec.
Qed.

(** Every run of [print_words] returns normally, having only appended to
    standard output. *)
Lemma print_words_ok (w : world) :
  exists s, print_words w = (Ok tt, with_stdout w (stdout w ++ s)).
Proof.
  destruct (Nat.eq_dec (List.length (sys_argv w)) 4) as [E|E].
  - destruct (length_four_inv _ _ E) as (p & a & b & c & Hl).
    eexists. exact (print_words_four w p a b c Hl).
  - eexists. now apply print_words_other_out.
Qed.

(** The script is [print_words] followed by a normal exit. *)
Lemma run_script_print_words (w : world) :
  run_script w = (0, snd (print_words w)).
Proof.
  unfold run_script, run_main.
  change (module_body "__main__") with print_words.
  destruct (print_words_ok w) as [s Hs]. now rewrite Hs.
Qed.

(** The two lines the script can print differ. *)
Lemma lines_differ (a b c : string) :
  "Your words: " ++ a ++ " " ++ b ++ " " ++ c ++ nl <> "Give 3 words!" ++ nl.
Proof. cbn. discriminate. Qed.

End Script.

(** ** Properties of the script *)

(** The scenarios of a command line [python sample.py ...]. *)

Example run_apple_banana_cherry :
  run_script (spawn "sample.py" ["apple"; "banana"; "cherry"] [] []) =
  (0, with_stdout (spawn "sample.py" ["apple"; "banana"; "cherry"] [] [])
        ("Your words: apple banana cherry" ++ nl)).
Proof. reflexivity. Qed.

Example run_hello_world_today :
  stdout (snd (run_script (spawn "sample.py" ["hello"; "world"; "today"] [] [])))
  = "Your words: hello world today" ++ nl.
Proof. reflexivity. Qed.

Example run_no_arguments :
  stdout (snd (run_script (spawn "sample.py" [] [] []))) =
  "Give 3 words!" ++ nl.
Proof. reflexivity. Qed.

Example run_one_two :
  stdout (snd (run_script (spawn "sample.py" ["one"; "two"] [] []))) =
  "Give 3 words!" ++ nl.
Proof. reflexivity. Qed.

Example run_one_two_three_four :
  stdout (snd (run_script
                 (spawn "sample.py" ["one"; "two"; "three"; "four"] [] []))) =
  "Give 3 words!" ++ nl.
Proof. reflexivity. Qed.




(** C3: the test is on the length of the whole of [sys.argv], element 0
    included.  With four elements the labelled line is printed from
    elements 1 to 3, whatever element 0 is; "Give 3 words!" is printed
    exactly when the length is not four, and so for a list of three words
    with no program name in front. *)
Theorem branch_counts_whole_argv (w : world) :
  (forall p a b c : string,
      sys_argv w = [p; a; b; c] ->
      stdout (snd (print_words w)) =
      stdout w ++ "Your words: " ++ a ++ " " ++ b ++ " " ++ c ++ nl)
  /\ (stdout (snd (print_words w)) = stdout w ++ "Give 3 words!" ++ nl
      <-> List.length (sys_argv w) <> 4%nat)
  /\ (forall a b c : string,
         sys_argv w = [a; b; c] ->
         stdout (snd (print_words w)) = stdout w ++ "Give 3 words!" ++ nl).
Proof.
  split; [|split].
  - intros p a b c E. now rewrite (print_words_four w p a b c E).
  - split.
    + intros Hout Hlen.
      destruct (length_four_inv _ _ Hlen) as (p & a & b & c & E).
      rewrite (print_words_four w p a b c E) in Hout. cbn in Hout.
      apply append_inv_head in Hout. revert Hout. apply lines_differ.
    + intros Hlen. now rewrite (print_words_other_out w Hlen).
  - intros a b c E. rewrite print_words_other_out; [reflexivity|].
    rewrite E. cbn. lia.
Qed.

Lemma branch_counts_whole_argv_witness :
  stdout (snd (print_words
                 (mkWorld ["apple"; "banana"; "cherry"] [] EmptyString
                          EmptyString [] []))) =
  "Give 3 words!" ++ nl
  /\ stdout (snd (print_words
                    (mkWorld [EmptyString; "apple"; "banana"; "cherry"] []
                             EmptyString EmptyString [] []))) =
     "Your words: apple banana cherry" ++ nl.
Proof.
  split.
  - destruct (branch_counts_whole_argv
                (mkWorld ["apple"; "banana"; "cherry"] [] EmptyString
                         EmptyString [] [])) as (_ & _ & H).
    exact (H "apple" "banana" "cherry" eq_refl).
  - destruct (branch_counts_whole_argv
                (mkWorld [EmptyString; "apple"; "banana"; "cherry"] []
                         EmptyString EmptyString [] [])) as (H & _).
    exact (H EmptyString "apple" "banana" "cherry" eq_refl).
Defined.




(** C9: the subscriptions [sys.argv[1]], [sys.argv[2]] and [sys.argv[3]]
    are evaluated only when [len(sys.argv) == 4] holds, where each index is
    within the bounds of the list and yields its element; with any other
    length the function is its second branch, which subscripts nothing.
    So [print_words] never ends with [IndexError]. *)
Theorem subscripts_in_bounds (w : world) :
  (len (sys_argv w) = 4 ->
   forall i : Z,
     In i [1; 2; 3] ->
     0 <= i < len (sys_argv w)
     /\ exists x : string,
          nth_error (sys_argv w) (Z.to_nat i) = Some x
          /\ sys_argv_at i w = (Ok x, w))
  /\ (len (sys_argv w) <> 4 -> print_words w = print ["Give 3 words!"] w)
  /\ fst (print_words w) = Ok tt.
Proof.
  split; [|split].
  - intros Hlen i Hi.
    assert (Hb : 0 <= i < len (sys_argv w)).
    { rewrite Hlen. cbn in Hi. lia. }
    split; [exact Hb|].
    destruct (subscript_in_bounds (sys_argv w) i w Hb) as (x & Hx & _).
    exists x. split; [exact Hx|].
    apply sys_argv_at_nth; [lia | exact Hx].
  - intros Hlen. apply print_words_other.
    intros E. apply Hlen. now apply (len_eq _ _ 4%nat).
  - destruct (print_words_ok w) as [s Hs]. now rewrite Hs.
Qed.

Lemma subscripts_in_bounds_witness :
  sys_argv_at 3 (spawn "sample.py" ["apple"; "banana"; "cherry"] [] []) =
  (Ok "cherry", spawn "sample.py" ["apple"; "banana"; "cherry"] [] [])
  /\ print_words (spawn "sample.py" ["one"; "two"] [] []) =
     print ["Give 3 words!"] (spawn "sample.py" ["one"; "two"] [] []).
Proof.
  split.
  - destruct (subscripts_in_bounds
                (spawn "sample.py" ["apple"; "banana"; "cherry"] [] []))
      as (H & _ & _).
    destruct (H eq_refl 3 (or_intror (or_intror (or_introl eq_refl))))
      as (_ & x & Hx & Hat).
    injection Hx as <-. exact Hat.
  - destruct (subscripts_in_bounds (spawn "sample.py" ["one"; "two"] [] []))
      as (_ & H & _).
    apply H. cbn. lia.
Defined.

(** C10: the labelled line does not determine the three arguments.  The
    triples ("a b", "c", "d") and ("a", "b c", "d") differ, and both give
    the line "Your words: a b c d". *)
Theorem output_not_injective
        (prog : string) (env fs : list (string * string)) :
  ("a b", "c", "d") <> ("a", "b c", "d")
  /\ stdout (snd (run_script (spawn prog ["a b"; "c"; "d"] env fs))) =
     "Your words: a b c d" ++ nl
  /\ stdout (snd (run_script (spawn prog ["a"; "b c"; "d"] env fs))) =
     "Your words: a b c d" ++ nl.
Proof.
  split; [discriminate|].
  rewrite !run_script_print_words.
  rewrite (print_words_four (spawn prog ["a b"; "c"; "d"] env fs)
                            prog "a b" "c" "d" eq_refl).
  rewrite (print_words_four (spawn prog ["a"; "b c"; "d"] env fs)
                            prog "a" "b c" "d" eq_refl).
  split; reflexivity.
Qed.

(** ** Further properties of the script *)

Section MoreTexts.




End MoreTexts.







(** ** The script run by a process: the runtime primitives *)

Module Process.
Import PyIO SampleIO.
Local Open Scope list_scope.

(** *** Encoding *)

Lemma encode_app (k : codec) (s t : string) :
  encode k (s ++ t)%string =
  match encode k s, encode k t with
  | Some a, Some b => Some (a ++ b)
  | _, _ => None
  end.
Proof.
  induction s as [|c s IH]; simpl.
  - now destruct (encode k t).
  - rewrite IH.
    destruct (encode_char k c) as [x|]; [|reflexivity].
    destruct (encode k s) as [a|]; [|reflexivity].
    destruct (encode k t) as [b|]; [|reflexivity].
    now rewrite app_assoc.
Qed.

Example encode_e_acute :
  encode ASCII e_acute = None
  /\ encode Latin1 e_acute = Some [xe9]
  /\ encode UTF8 e_acute = Some [xc3; xa9].
Proof. repeat split. Qed.

Example run_e_acute_latin1 :
  run_script (boot "sample.py" [e_acute; "b"; "c"] [] Latin1 block_buffered
                   Accepting)
  = (0%Z,
     with_out (boot "sample.py" [e_acute; "b"; "c"] [] Latin1 block_buffered
                    Accepting)
              []
              [x59; x6f; x75; x72; x20; x77; x6f; x72; x64; x73; x3a; x20;
               xe9; x20; x62; x20; x63; x0a]).
Proof. reflexivity. Qed.

Lemma can_encode_app (k : codec) (s t : string) :
  can_encode k (s ++ t)%string = can_encode k s && can_encode k t.
Proof.
  unfold can_encode. rewrite encode_app.
  destruct (encode k s), (encode k t); reflexivity.
Qed.

Lemma can_encode_true (k : codec) (s : string) :
  can_encode k s = true <-> exists b, encode k s = Some b.
Proof.
  unfold can_encode. destruct (encode k s) as [b|]; split.
  - intros _. now exists b.
  - reflexivity.
  - discriminate.
  - intros [b H]. discriminate.
Qed.

(** *** Computations that only feed standard output *)

Lemma frame_refl (p : proc) : frame p p.
Proof. repeat split. Qed.

Lemma frame_trans (p q r : proc) : frame p q -> frame q r -> frame p r.
Proof.
  unfold frame. intros (A1 & A2 & A3 & A4 & A5 & A6 & A7)
                       (B1 & B2 & B3 & B4 & B5 & B6 & B7).
  repeat split; congruence.
Qed.

Lemma extends_refl (p : proc) : extends p p [].
Proof.
  unfold extends. rewrite app_nil_r. repeat split.
Qed.

Lemma extends_trans (p q r : proc) (x y : list byte) :
  extends p q x -> extends q r y -> extends p r (x ++ y).
Proof.
  intros (F1 & E1 & M1 & R1) (F2 & E2 & M2 & R2).
  split; [exact (frame_trans _ _ _ F1 F2)|].
  split; [congruence|]. split.
  - rewrite M2, M1. now rewrite app_assoc.
  - intros Hd. rewrite R2, R1; try reflexivity; try exact Hd.
    destruct F1 as (_ & _ & _ & _ & D & _). congruence.
Qed.


Lemma flush_extends (p : proc) : extends p (snd (flush_stdout p)) [].
Proof.
  unfold flush_stdout.
  destruct (out_pending p) as [|b bs] eqn:E; [apply extends_refl|].
  destruct (out_device p) eqn:D; [|apply extends_refl].
  unfold extends, frame, emitted. cbn. rewrite E, !app_nil_r.
  repeat split. intros H. congruence.
Qed.

(** A write of a text the codec has bytes for adds these bytes, whatever
    the buffering rule and the device do with them. *)
Lemma write_extends (s : string) (p : proc) (b : list byte) :
  encode (out_codec p) s = Some b ->
  extends p (snd (write_stdout s p)) b.
Proof.
  intros E. unfold write_stdout. rewrite E. cbv zeta.
  set (p1 := with_out p (out_pending p ++ b) (out_received p)).
  assert (H1 : extends p p1 b).
  { unfold extends, frame, emitted, p1. cbn. rewrite app_assoc.
    repeat split. }
  destruct (out_autoflush p (out_pending p1)); [|exact H1].
  rewrite <- (app_nil_r b).
  exact (extends_trans _ _ _ _ _ H1 (flush_extends p1)).
Qed.

Lemma write_unencodable (s : string) (p : proc) :
  encode (out_codec p) s = None ->
  write_stdout s p = (Raise UnicodeEncodeError, p).
Proof. intros E. unfold write_stdout. now rewrite E. Qed.

(** With a device that takes the bytes such a write returns normally. *)
Lemma write_accepted (s : string) (p : proc) (b : list byte) :
  out_device p = Accepting ->
  encode (out_codec p) s = Some b ->
  fst (write_stdout s p) = Ok tt.
Proof.
  intros D E. unfold write_stdout. rewrite E. cbv zeta.
  destruct (out_autoflush p _); [|reflexivity].
  unfold flush_stdout. cbn [out_pending out_device with_out].
  destruct (out_pending p ++ b); [reflexivity|]. now rewrite D.
Qed.












End Process.

(** ** The script run by a process: one call of [print] *)

Module Printing.
Import PyIO SampleIO Process.
Local Open Scope list_scope.

Lemma extends_device (p p' : proc) (x : list byte) :
  extends p p' x -> out_device p' = out_device p.
Proof. now intros ((_ & _ & _ & _ & D & _) & _). Qed.

Lemma extends_codec (p p' : proc) (x : list byte) :
  extends p p' x -> out_codec p' = out_codec p.
Proof. now intros ((_ & _ & K & _) & _). Qed.


Lemma write_ok (s : string) (p : proc) (b : list byte) :
  out_device p = Accepting ->
  encode (out_codec p) s = Some b ->
  exists p', write_stdout s p = (Ok tt, p') /\ extends p p' b.
Proof.
  intros D E. exists (snd (write_stdout s p)). split.
  - rewrite (surjective_pairing (write_stdout s p)) at 1.
    now rewrite (write_accepted s p b D E).
  - now apply write_extends.
Qed.

Lemma encode_space (k : codec) : exists b, encode k " " = Some b.
Proof. destruct k; eexists; reflexivity. Qed.

Lemma print_text_cons (i : nat) (o : string) (rest : list string) :
  print_text i (o :: rest) =
  ((if (0 <? i)%nat then " " else EmptyString)
     ++ o ++ print_text (S i) rest)%string.
Proof.
  unfold print_text. destruct rest as [|o' rest'].
  - cbn. now rewrite append_empty_r.
  - reflexivity.
Qed.

(** When the codec has bytes for all of it, the print loop returns
    normally and standard output has taken the bytes of the joined text. *)
Lemma print_objs_accepted (objs : list string) :
  forall (i : nat) (p : proc) (bs : list byte),
    out_device p = Accepting ->
    encode (out_codec p) (print_text i objs) = Some bs ->
    exists p', print_objs i objs p = (Ok tt, p') /\ extends p p' bs.
Proof.
  induction objs as [|o rest IH]; intros i p bs D E.
  - cbn in E. injection E as <-. exists p. split; [reflexivity|].
    apply extends_refl.
  - rewrite print_text_cons, !encode_app in E.
    destruct (encode (out_codec p) (if (0 <? i)%nat then " " else EmptyString))
      as [b0|] eqn:E0; [|discriminate].
    destruct (encode (out_codec p) o) as [b1|] eqn:E1; [|discriminate].
    destruct (encode (out_codec p) (print_text (S i) rest))
      as [b2|] eqn:E2; [|discriminate].
    injection E as <-.
    assert (H0 : exists p0,
               (if (0 <? i)%nat then write_stdout " " else ret tt) p
               = (Ok tt, p0) /\ extends p p0 b0).
    { destruct (0 <? i)%nat.
      - now apply write_ok.
      - cbn in E0. injection E0 as <-. exists p. split; [reflexivity|].
        apply extends_refl. }
    destruct H0 as (p0 & R0 & X0).
    cbn [print_objs]. unfold bind at 1. rewrite R0.
    destruct (write_ok o p0 b1) as (p1 & R1 & X1).
    { rewrite (extends_device _ _ _ X0). exact D. }
    { rewrite (extends_codec _ _ _ X0). exact E1. }
    unfold bind at 1. rewrite R1.
    destruct (IH (S i) p1 b2) as (p2 & R2 & X2).
    { rewrite (extends_device _ _ _ X1), (extends_device _ _ _ X0).
      exact D. }
    { rewrite (extends_codec _ _ _ X1), (extends_codec _ _ _ X0).
      exact E2. }
    exists p2. split; [exact R2|].
    exact (extends_trans _ _ _ _ _ X0 (extends_trans _ _ _ _ _ X1 X2)).
Qed.

(** When the codec lacks bytes for some of it, the loop ends with
    [UnicodeEncodeError]. *)
Lemma print_objs_unencodable (objs : list string) :
  forall (i : nat) (p : proc),
    out_device p = Accepting ->
    encode (out_codec p) (print_text i objs) = None ->
    fst (print_objs i objs p) = Raise UnicodeEncodeError.
Proof.
  induction objs as [|o rest IH]; intros i p D E.
  - discriminate.
  - rewrite print_text_cons, !encode_app in E.
    assert (H0 : exists p0 b0,
               (if (0 <? i)%nat then write_stdout " " else ret tt) p
               = (Ok tt, p0) /\ extends p p0 b0
               /\ encode (out_codec p)
                         (if (0 <? i)%nat then " " else EmptyString)
                  = Some b0).
    { destruct (0 <? i)%nat.
      - destruct (encode_space (out_codec p)) as [b0 E0].
        destruct (write_ok " " p b0 D E0) as (p0 & R0 & X0).
        now exists p0, b0.
      - exists p, []. split; [reflexivity|]. split; [apply extends_refl|].
        reflexivity. }
    destruct H0 as (p0 & b0 & R0 & X0 & E0). rewrite E0 in E.
    cbn [print_objs]. unfold bind at 1. rewrite R0.
    assert (D0 : out_device p0 = Accepting)
      by (rewrite (extends_device _ _ _ X0); exact D).
    destruct (encode (out_codec p) o) as [b1|] eqn:E1.
    + destruct (write_ok o p0 b1 D0) as (p1 & R1 & X1).
      { rewrite (extends_codec _ _ _ X0). exact E1. }
      unfold bind at 1. rewrite R1. apply IH.
      * rewrite (extends_device _ _ _ X1). exact D0.
      * rewrite (extends_codec _ _ _ X1), (extends_codec _ _ _ X0).
        destruct (encode (out_codec p) (print_text (S i) rest));
          [discriminate | reflexivity].
    + unfold bind at 1. rewrite write_unencodable; [reflexivity|].
      rewrite (extends_codec _ _ _ X0). exact E1.
Qed.

Lemma encode_nl (k : codec) : exists b, encode k Py.nl = Some b.
Proof. destruct k; eexists; reflexivity. Qed.

(** [print] with a device that takes the bytes: it returns normally, the
    bytes of the line added, when the codec has bytes for the line, and
    ends with [UnicodeEncodeError] otherwise. *)
Lemma print_accepted (objs : list string) (p : proc) (bs : list byte) :
  out_device p = Accepting ->
  encode (out_codec p) (String.concat " " objs ++ Py.nl)%string = Some bs ->
  exists p', print objs p = (Ok tt, p') /\ extends p p' bs.
Proof.
  intros D E. rewrite encode_app in E.
  destruct (encode (out_codec p) (String.concat " " objs))
    as [b1|] eqn:E1; [|discriminate].
  destruct (encode (out_codec p) Py.nl) as [b2|] eqn:E2; [|discriminate].
  injection E as <-.
  destruct (print_objs_accepted objs 0 p b1 D) as (p1 & R1 & X1).
  { unfold print_text. destruct objs; [exact E1|]. exact E1. }
  destruct (write_ok Py.nl p1 b2) as (p2 & R2 & X2).
  { rewrite (extends_device _ _ _ X1). exact D. }
  { rewrite (extends_codec _ _ _ X1). exact E2. }
  exists p2. unfold print, bind. rewrite R1, R2. split; [reflexivity|].
  exact (extends_trans _ _ _ _ _ X1 X2).
Qed.

Lemma print_unencodable (objs : list string) (p : proc) :
  out_device p = Accepting ->
  encode (out_codec p) (String.concat " " objs ++ Py.nl)%string = None ->
  fst (print objs p) = Raise UnicodeEncodeError.
Proof.
  intros D E. rewrite encode_app in E.
  destruct (encode_nl (out_codec p)) as [b2 E2]. rewrite E2 in E.
  assert (E1 : encode (out_codec p) (print_text 0 objs) = None).
  { unfold print_text.
    destruct (encode (out_codec p) (String.concat " " objs)) eqn:E1;
      [discriminate|].
    destruct objs; [discriminate E1 | exact E1]. }
  pose proof (print_objs_unencodable objs 0 p D E1) as H.
  unfold print, bind.
  destruct (print_objs 0 objs p) as [[u|e] p1]; cbn [fst] in H;
    [discriminate | now rewrite H].
Qed.

(** [print] never ends with [IndexError]. *)
Lemma write_not_index (s : string) (p : proc) :
  fst (write_stdout s p) <> Raise IndexError.
Proof.
  unfold write_stdout. destruct (encode _ s); [|discriminate]. cbv zeta.
  destruct (out_autoflush p _); [|discriminate].
  unfold flush_stdout. destruct (out_pending _); [discriminate|].
  destruct (out_device _); discriminate.
Qed.

Lemma bind_not_index (A B : Type) (c : IO A) (k : A -> IO B) :
  (forall p, fst (c p) <> Raise IndexError) ->
  (forall a p, fst (k a p) <> Raise IndexError) ->
  forall p, fst (bind c k p) <> Raise IndexError.
Proof.
  intros Hc Hk p. unfold bind. specialize (Hc p).
  destruct (c p) as [[a|e] p1]; [apply Hk|].
  cbn [fst] in *. intros H. apply Hc. now injection H as ->.
Qed.

Lemma print_objs_not_index (objs : list string) :
  forall (i : nat) (p : proc),
    fst (print_objs i objs p) <> Raise IndexError.
Proof.
  induction objs as [|o rest IH]; intros i; cbn [print_objs].
  - discriminate.
  - apply bind_not_index.
    + destruct (0 <? i)%nat; [apply write_not_index | discriminate].
    + intros _. apply bind_not_index; [apply write_not_index|].
      intros _. apply IH.
Qed.

Lemma print_not_index (objs : list string) (p : proc) :
  fst (print objs p) <> Raise IndexError.
Proof.
  apply bind_not_index; [apply print_objs_not_index|].
  intros _. apply write_not_index.
Qed.


End Printing.

(** ** The script run by a process: [print_words] and the exit *)

Module Running.
Import PyIO SampleIO Process Printing.
Local Open Scope list_scope.

Lemma io_sys_argv_at (p : proc) (i : Z) (x : string) :
  (0 <= i)%Z ->
  nth_error (sys_argv p) (Z.to_nat i) = Some x ->
  sys_argv_at i p = (Ok x, p).
Proof.
  intros Hi Hx. unfold sys_argv_at, bind, get_argv, subscript.
  assert (Hlt : (Z.to_nat i < List.length (sys_argv p))%nat)
    by (apply nth_error_Some; congruence).
  destruct (Z.ltb_spec i 0) as [Hneg|_]; [lia|].
  destruct (Z.ltb_spec i 0) as [Hneg|_]; [lia|].
  destruct (Z.leb_spec (Py.len (sys_argv p)) i) as [Hbig|_].
  { unfold Py.len in Hbig. lia. }
  cbn [orb]. now rewrite Hx.
Qed.

(** With four elements in [sys.argv] the call is the first [print]. *)
Lemma io_print_words_four (p : proc) (prog a b c : string) :
  sys_argv p = [prog; a; b; c] ->
  print_words p = print ["Your words:"; a; b; c] p.
Proof.
  intros E. unfold print_words, bind at 1. unfold get_argv at 1.
  rewrite E. change (Py.len [prog; a; b; c] =? 4)%Z with true. cbv iota.
  unfold bind at 1.
  rewrite (io_sys_argv_at p 1 a) by (rewrite ?E; first [lia | reflexivity]).
  unfold bind at 1.
  rewrite (io_sys_argv_at p 2 b) by (rewrite ?E; first [lia | reflexivity]).
  unfold bind at 1.
  rewrite (io_sys_argv_at p 3 c) by (rewrite ?E; first [lia | reflexivity]).
  reflexivity.
Qed.

(** With any other length it is the second. *)
Lemma io_print_words_other (p : proc) :
  List.length (sys_argv p) <> 4%nat ->
  print_words p = print ["Give 3 words!"] p.
Proof.
  intros H. unfold print_words, bind at 1. unfold get_argv at 1.
  destruct (Z.eqb_spec (Py.len (sys_argv p)) 4) as [E|_]; [|reflexivity].
  exfalso. apply H. unfold Py.len in E. lia.
Qed.

Lemma line_eq (a b c : string) :
  (String.concat " " ["Your words:"; a; b; c] ++ Py.nl)%string =
  ("Your words: " ++ a ++ " " ++ b ++ " " ++ c ++ Py.nl)%string.
Proof. cbn [String.concat]. now rewrite !append_assoc. Qed.

Lemma line_can_encode (k : codec) (a b c : string) :
  can_encode k ("Your words: " ++ a ++ " " ++ b ++ " " ++ c ++ Py.nl)%string
  = can_encode k a && can_encode k b && can_encode k c.
Proof.
  rewrite !can_encode_app.
  replace (can_encode k "Your words: ") with true by (now destruct k).
  replace (can_encode k " ") with true by (now destruct k).
  replace (can_encode k Py.nl) with true by (now destruct k).
  cbn [andb]. now rewrite andb_true_r, andb_assoc.
Qed.

(** What [accepts_output] says of the line that is printed. *)
Lemma accepts_four (p : proc) (prog a b c : string) :
  sys_argv p = [prog; a; b; c] ->
  out_device p = Accepting ->
  accepts_output p =
  can_encode (out_codec p)
             ("Your words: " ++ a ++ " " ++ b ++ " " ++ c ++ Py.nl)%string.
Proof.
  intros E D. unfold accepts_output. rewrite D, E.
  now rewrite line_can_encode.
Qed.


Lemma accepts_device (p : proc) :
  accepts_output p = true -> out_device p = Accepting.
Proof.
  unfold accepts_output. destruct (out_device p); [reflexivity|discriminate].
Qed.

(** One call of [print_words] with a device that takes the bytes. *)
Lemma print_words_accepted (p : proc) :
  accepts_output p = true ->
  exists p' bs,
    print_words p = (Ok tt, p') /\ extends p p' bs
    /\ encode (out_codec p)
              match sys_argv p with
              | [_; a; b; c] =>
                  ("Your words: " ++ a ++ " " ++ b ++ " " ++ c ++ Py.nl)%string
              | _ => ("Give 3 words!" ++ Py.nl)%string
              end
       = Some bs.
Proof.
  intros H. pose proof (accepts_device p H) as D.
  destruct (Nat.eq_dec (List.length (sys_argv p)) 4) as [L|L].
  - destruct (length_four_inv _ _ L) as (prog & a & b & c & E).
    rewrite (accepts_four p prog a b c E D) in H.
    apply can_encode_true in H as [bs Hbs].
    rewrite (io_print_words_four p prog a b c E).
    pose proof Hbs as Hline. rewrite <- line_eq in Hbs.
    destruct (print_accepted _ p bs D Hbs) as (p' & R & X).
    exists p', bs. split; [exact R|]. split; [exact X|].
    rewrite E. exact Hline.
  - rewrite (io_print_words_other p L).
    destruct (can_encode_true (out_codec p) ("Give 3 words!" ++ Py.nl)%string)
      as [[bs Hbs] _]; [now destruct (out_codec p)|].
    destruct (print_accepted ["Give 3 words!"] p bs D Hbs) as (p' & R & X).
    exists p', bs. split; [exact R|]. split; [exact X|].
    destruct (sys_argv p) as [|x0 [|x1 [|x2 [|x3 [|x4 l]]]]];
      try exact Hbs.
    now cbn in L.
Qed.



(** *** The flush at exit *)

Lemma flush_accepting (p : proc) :
  out_device p = Accepting ->
  exists p', flush_stdout p = (Ok tt, p')
             /\ extends p p' [] /\ out_received p' = emitted p
             /\ out_pending p' = [].
Proof.
  intros D. pose proof (flush_extends p) as X. revert X.
  unfold flush_stdout, emitted.
  destruct (out_pending p) as [|b bs] eqn:E.
  - intros X. exists p. rewrite app_nil_r.
    split; [reflexivity|]. split; [apply extends_refl|].
    split; [reflexivity | exact E].
  - rewrite D. intros X. eexists. split; [reflexivity|].
    split; [exact X|]. split; reflexivity.
Qed.




(** *** One run of the script *)

(** The run on a stream that takes the output: status 0, the bytes of the
    line delivered, nothing on standard error. *)
Lemma run_accepted (p : proc) :
  accepts_output p = true ->
  exists p' bs,
    run_script p = (0%Z, p')
    /\ frame p p' /\ stderr p' = stderr p
    /\ out_received p' = emitted p ++ bs /\ out_pending p' = []
    /\ encode (out_codec p)
              match sys_argv p with
              | [_; a; b; c] =>
                  ("Your words: " ++ a ++ " " ++ b ++ " " ++ c ++ Py.nl)%string
              | _ => ("Give 3 words!" ++ Py.nl)%string
              end
       = Some bs.
Proof.
  intros H. pose proof (accepts_device p H) as D.
  destruct (print_words_accepted p H) as (p1 & bs & R & X & Hbs).
  destruct (flush_accepting p1) as (p2 & F & X2 & Rc & Pd).
  { rewrite (extends_device _ _ _ X). exact D. }
  exists p2, bs. unfold run_script, run_main.
  change (module_body "__main__") with print_words.
  rewrite R, F. split; [reflexivity|].
  destruct X as (Fr & Se & Em & _), X2 as (Fr2 & Se2 & _).
  split; [exact (frame_trans _ _ _ Fr Fr2)|].
  split; [congruence|]. split; [congruence|]. split; [exact Pd | exact Hbs].
Qed.




End Running.

(** ** The script run by a process: two runs side by side *)

Module Uniform.
Import PyIO SampleIO Process Printing Running.
Local Open Scope list_scope.













(** X6: the text model describes the processes whose standard output
    takes what is printed: for the same [sys.argv], the bytes the device
    receives are the encoding of the text that the script appends to
    [stdout] in [Py], and the exit status is 0. *)
Theorem text_model_refined (w : Py.world) (p : proc) :
  Py.sys_argv w = sys_argv p ->
  accepts_output p = true ->
  exists (text : string) (bs : list byte),
    Py.stdout (snd (Sample.run_script w)) = (Py.stdout w ++ text)%string
    /\ encode (out_codec p) text = Some bs
    /\ out_received (snd (run_script p)) = emitted p ++ bs
    /\ fst (run_script p) = 0%Z.
Proof.
  intros A H.
  destruct (run_accepted p H) as (p' & bs & R & _ & _ & Rc & _ & Hbs).
  rewrite R. cbn [fst snd].
  rewrite run_script_print_words. cbn [snd].
  destruct (Nat.eq_dec (List.length (Py.sys_argv w)) 4) as [L|L].
  - destruct (length_four_inv _ _ L) as (prog & a & b & c & E).
    rewrite (print_words_four w prog a b c E).
    rewrite <- A, E in Hbs. eexists. exists bs.
    split; [reflexivity|]. now repeat split.
  - rewrite (print_words_other_out w L).
    exists ("Give 3 words!" ++ Py.nl)%string, bs.
    split; [reflexivity|]. split; [|now split].
    rewrite <- A in Hbs.
    destruct (Py.sys_argv w) as [|x0 [|x1 [|x2 [|x3 [|x4 l]]]]];
      try exact Hbs.
    now cbn in L.
Qed.

Lemma text_model_refined_witness :
  exists (text : string) (bs : list byte),
    Py.stdout
      (snd (Sample.run_script
              (Py.spawn "sample.py" ["apple"; "banana"; "cherry"] [] [])))
    = (EmptyString ++ text)%string
    /\ encode Latin1 text = Some bs
    /\ out_received
         (snd (run_script
                 (boot "sample.py" ["apple"; "banana"; "cherry"] [] Latin1
                       block_buffered Accepting)))
       = [] ++ bs
    /\ fst (run_script
              (boot "sample.py" ["apple"; "banana"; "cherry"] [] Latin1
                    block_buffered Accepting))
       = 0%Z.
Proof.
  exact (text_model_refined
           (Py.spawn "sample.py" ["apple"; "banana"; "cherry"] [] [])
           (boot "sample.py" ["apple"; "banana"; "cherry"] [] Latin1
                 block_buffered Accepting)
           eq_refl eq_refl).
Defined.

End Uniform.

(** ** Properties of the script that depend on the standard streams *)

Module Streams.
Import PyIO SampleIO Process Printing Running Uniform.
Local Open Scope list_scope.

(** C4, as stated, fails: [print] raises when the codec of standard output
    has no bytes for an argument.  Started with [PYTHONIOENCODING=ascii]
    and the arguments U+00E9, "b", "c", [print_words] ends with
    [UnicodeEncodeError]. *)
Lemma print_words_raises_counterexample :
  start "sample.py" [e_acute; "b"; "c"] [("PYTHONIOENCODING", "ascii")]
        UTF8 line_buffered Accepting
  = Some (boot "sample.py" [e_acute; "b"; "c"]
               [("PYTHONIOENCODING", "ascii")] ASCII line_buffered Accepting)
  /\ fst (print_words
            (boot "sample.py" [e_acute; "b"; "c"]
                  [("PYTHONIOENCODING", "ascii")] ASCII line_buffered
                  Accepting))
     = Raise UnicodeEncodeError.
Proof. split; reflexivity. Qed.

(** C4, amended: [print_words] never ends with [IndexError], whatever
    [sys.argv] and the stream are.  With a device that takes the bytes it
    goes through exactly one branch: with four elements in [sys.argv] it
    returns normally having fed standard output the bytes of the line
    "Your words:" followed by elements 1 to 3, when the codec has bytes for
    that line, and ends with [UnicodeEncodeError] when it has not; with any
    other length it returns normally having fed the bytes of
    "Give 3 words!" and the line terminator. *)
Theorem print_words_total_when_accepted (p : proc) :
  fst (print_words p) <> Raise IndexError
  /\ (out_device p = Accepting ->
      (forall prog a b c : string,
          sys_argv p = [prog; a; b; c] ->
          match
            encode (out_codec p)
                   ("Your words: " ++ a ++ " " ++ b ++ " " ++ c ++ Py.nl)%string
          with
          | Some bs =>
              exists p', print_words p = (Ok tt, p') /\ extends p p' bs
          | None => fst (print_words p) = Raise UnicodeEncodeError
          end)
      /\ (List.length (sys_argv p) <> 4%nat ->
          exists p' bs,
            encode (out_codec p) ("Give 3 words!" ++ Py.nl)%string = Some bs
            /\ print_words p = (Ok tt, p') /\ extends p p' bs)).
Proof.
  split.
  - destruct (Nat.eq_dec (List.length (sys_argv p)) 4) as [L|L].
    + destruct (length_four_inv _ _ L) as (prog & a & b & c & E).
      rewrite (io_print_words_four p prog a b c E). apply print_not_index.
    + rewrite (io_print_words_other p L). apply print_not_index.
  - intros D. split.
    + intros prog a b c E. rewrite (io_print_words_four p prog a b c E).
      rewrite <- line_eq.
      destruct (encode _ _) as [bs|] eqn:Hbs.
      * now apply print_accepted.
      * now apply print_unencodable.
    + intros L. rewrite (io_print_words_other p L).
      destruct (can_encode_true (out_codec p)
                                ("Give 3 words!" ++ Py.nl)%string)
        as [[bs Hbs] _]; [now destruct (out_codec p)|].
      destruct (print_accepted ["Give 3 words!"] p bs D Hbs)
        as (p' & R & X).
      now exists p', bs.
Qed.

Lemma print_words_total_when_accepted_witness :
  (exists p' bs,
      print_words (boot "sample.py" ["apple"; "banana"; "cherry"] []
                        UTF8 line_buffered Accepting) = (Ok tt, p')
      /\ extends (boot "sample.py" ["apple"; "banana"; "cherry"] []
                       UTF8 line_buffered Accepting) p' bs)
  /\ (exists p' bs,
         encode UTF8 ("Give 3 words!" ++ Py.nl)%string = Some bs
         /\ print_words (boot "sample.py" ["one"; "two"] []
                              UTF8 block_buffered Accepting) = (Ok tt, p')
         /\ extends (boot "sample.py" ["one"; "two"] []
                          UTF8 block_buffered Accepting) p' bs).
Proof.
  split.
  - pose proof
      (proj1 (proj2 (print_words_total_when_accepted
                       (boot "sample.py" ["apple"; "banana"; "cherry"] []
                             UTF8 line_buffered Accepting)) eq_refl)
             "sample.py" "apple" "banana" "cherry" eq_refl) as H.
    revert H. destruct (encode _ _) as [bs|] eqn:E.
    + intros [p' H]. now exists p', bs.
    + vm_compute in E. discriminate E.
  - apply (print_words_total_when_accepted
             (boot "sample.py" ["one"; "two"] [] UTF8 block_buffered
                   Accepting)).
    + reflexivity.
    + cbn. lia.
Defined.










End Streams.
